Set Warnings "-register-all".
(* Shallow embedding of the data-quality audit engine of dq_ai:
   src/run_audit.py (checks and scorer) and the enrichment stage of
   src/app.py (function [run]).  Python floats are modelled by exact
   rationals [Q]; pandas DataFrames by a list of named, typed columns over
   a list of rows. *)

From Stdlib Require Import QArith Qabs Qround Qminmax ZArith String Ascii List Bool Lia Lqa.
Import ListNotations.
Open Scope Q_scope.

(* ------------------------------------------------------------------ *)
(** * Cells, values and issue records *)

(** A cell of a DataFrame.  [CNull] is pandas' missing marker
    (NaN / None / NaT). *)
Inductive cell : Type :=
| CNull
| CNum (q : Q)
| CStr (s : string)
| CBool (b : bool)
| CTime (t : Z).

(** Cell equality as used by [DataFrame.duplicated]: numbers by value,
    and missing values equal to each other. *)
Definition cell_eqb (a b : cell) : bool :=
  match a, b with
  | CNull, CNull => true
  | CNum x, CNum y => Qeq_bool x y
  | CStr x, CStr y => String.eqb x y
  | CBool x, CBool y => Bool.eqb x y
  | CTime x, CTime y => Z.eqb x y
  | _, _ => false
  end.

Fixpoint row_eqb (r1 r2 : list cell) : bool :=
  match r1, r2 with
  | [], [] => true
  | a :: r1', b :: r2' => cell_eqb a b && row_eqb r1' r2'
  | _, _ => false
  end.

(** JSON-like values stored in the loosely typed issue dicts. *)
Inductive value : Type :=
| VInt (z : Z)
| VNum (q : Q)
| VStr (s : string)
| VNone
| VCell (c : cell)
| VList (l : list value)
| VDict (d : list (string * value)).

(** A Python dict, as an association list in insertion order. *)
Definition record := list (string * value).

Fixpoint dict_get (k : string) (d : record) : option value :=
  match d with
  | [] => None
  | (k', v) :: d' => if String.eqb k k' then Some v else dict_get k d'
  end.

(** [d[k] = v]: overwrite in place when present, append otherwise. *)
Fixpoint dict_set (k : string) (v : value) (d : record) : record :=
  match d with
  | [] => [(k, v)]
  | (k', v') :: d' =>
      if String.eqb k k' then (k', v) :: d' else (k', v') :: dict_set k v d'
  end.

(* ------------------------------------------------------------------ *)
(** * Findings and the scorer *)

(** [CheckResult] *)
Record CheckResult : Type := mkCheckResult {
  name : string;
  severity : string;
  issues : list record;
  impact : Q
}.

(** [SEVERITY_WEIGHTS = {"critical": 3, "major": 2, "minor": 1}] *)
Definition SEVERITY_WEIGHTS : list (string * Q) :=
  [("critical"%string, 3); ("major"%string, 2); ("minor"%string, 1)].

Fixpoint assoc_get {A} (k : string) (l : list (string * A)) : option A :=
  match l with
  | [] => None
  | (k', v) :: l' => if String.eqb k k' then Some v else assoc_get k l'
  end.

(** [SEVERITY_WEIGHTS.get(sev, 1)] *)
Definition severity_weight (sev : string) : Q :=
  match assoc_get sev SEVERITY_WEIGHTS with Some w => w | None => 1 end.

(** [norm(x, cap) = max(0.0, min(1.0, x / cap))] *)
Definition norm (x cap : Q) : Q := Qmax 0 (Qmin 1 (x / cap)).

(** Python's [round(x, 0)] on an exact value: round half to even. *)
Definition round_half_even (q : Q) : Z :=
  let f := Qfloor q in
  match Qcompare (q - inject_Z f) (1 # 2) with
  | Lt => f
  | Gt => (f + 1)%Z
  | Eq => if Z.even f then f else (f + 1)%Z
  end.

(** [round(x, 1)] *)
Definition round1 (q : Q) : Q := Qmake (round_half_even (q * 10)) 10.

(** The penalty loop of [compute_score]. *)
Fixpoint penalty_loop (acc : Q) (results : list CheckResult) : Q :=
  match results with
  | [] => acc
  | r :: rs => penalty_loop (acc + severity_weight (severity r) * impact r * 10) rs
  end.

(** [compute_score] *)
Definition compute_score (results : list CheckResult) : Q :=
  let penalty := penalty_loop 0 results in
  let score := Qmax 0 (100 - penalty) in
  round1 score.

(** The score formula as the spec words it:
    round(clamp(100 - sum of weight x impact x 10, 0, 100), 1). *)
Definition spec_weight (sev : string) : Q :=
  if String.eqb sev "critical" then 3
  else if String.eqb sev "major" then 2 else 1.

Definition spec_penalty (results : list CheckResult) : Q :=
  fold_right (fun r acc => spec_weight (severity r) * impact r * 10 + acc) 0 results.

Definition spec_score (results : list CheckResult) : Q :=
  round1 (Qmax 0 (Qmin 100 (100 - spec_penalty results))).

(** The Finding invariants of the data model: one of the three severities,
    and an impact in [0,1]. *)
Definition finding_wf (r : CheckResult) : Prop :=
  (severity r = "critical"%string \/ severity r = "major"%string
   \/ severity r = "minor"%string) /\ 0 <= impact r <= 1.

(** The penalty of one finding. *)
Definition finding_penalty (r : CheckResult) : Q :=
  severity_weight (severity r) * impact r * 10.

(* ------------------------------------------------------------------ *)
(** * DataFrames *)

(** The pandas dtypes the audited frames carry. *)
Inductive dtype : Type :=
| DInt64 | DFloat64 | DBool | DObject | DString | DCategory
| DDatetime | DDatetimeUTC.

(** [str(df[c].dtype)] *)
Definition dtype_str (t : dtype) : string :=
  match t with
  | DInt64 => "int64" | DFloat64 => "float64" | DBool => "bool"
  | DObject => "object" | DString => "string" | DCategory => "category"
  | DDatetime => "datetime64[ns]" | DDatetimeUTC => "datetime64[ns, UTC]"
  end.

Record column : Type := mkColumn {
  col_name : string;
  col_dtype : dtype;
  col_cells : list cell
}.

(** A DataFrame with a RangeIndex of [df_nrows] rows; every column holds
    [df_nrows] cells. *)
Record DataFrame : Type := mkDataFrame {
  df_columns : list column;
  df_nrows : nat
}.

Definition df_names (df : DataFrame) : list string := map col_name (df_columns df).

Definition mem_string (s : string) (l : list string) : bool :=
  existsb (String.eqb s) l.

(** [df[c]] for a name that labels exactly one column. *)
Definition find_column (df : DataFrame) (c : string) : option column :=
  find (fun col => String.eqb (col_name col) c) (df_columns df).

Definition name_count (df : DataFrame) (c : string) : nat :=
  count_occ string_dec (df_names df) c.

Definition cell_at (col : column) (i : nat) : cell := nth i (col_cells col) CNull.

(** The rows of the frame, restricted to the given columns. *)
Definition rows_of (cols : list column) (n : nat) : list (list cell) :=
  map (fun i => map (fun col => cell_at col i) cols) (seq 0 n).

Definition df_rows (df : DataFrame) : list (list cell) :=
  rows_of (df_columns df) (df_nrows df).

Definition count_true (l : list bool) : nat := length (filter (fun b => b) l).

(** [duplicated(keep="first")] at position [i]: an equal earlier row. *)
Definition dup_first (rows : list (list cell)) (i : nat) : bool :=
  existsb (row_eqb (nth i rows [])) (firstn i rows).

(** [duplicated(keep="last")] at position [i]: an equal later row. *)
Definition dup_last (rows : list (list cell)) (i : nat) : bool :=
  existsb (row_eqb (nth i rows [])) (skipn (S i) rows).

(** [duplicated(keep=False)] = keep first | keep last. *)
Definition dup_any (rows : list (list cell)) (i : nat) : bool :=
  dup_first rows i || dup_last rows i.

Definition dup_first_mask (rows : list (list cell)) : list bool :=
  map (dup_first rows) (seq 0 (length rows)).

Definition dup_any_mask (rows : list (list cell)) : list bool :=
  map (dup_any rows) (seq 0 (length rows)).

(** Positions where a mask holds ([s[mask].index]). *)
Definition mask_indices (m : list bool) : list nat :=
  map fst (filter snd (combine (seq 0 (length m)) m)).

Definition Z_of_bool_count (l : list bool) : Z := Z.of_nat (count_true l).

(** [max(10, len * frac)] *)
Definition cap_of (n : nat) (frac : Q) : Q := Qmax 10 (inject_Z (Z.of_nat n) * frac).

Definition is_null (c : cell) : bool := match c with CNull => true | _ => false end.

(** [dict(zip(keys, vals))]: later duplicate keys overwrite earlier ones. *)
Definition dict_of_list (l : list (string * value)) : record :=
  fold_left (fun d kv => dict_set (fst kv) (snd kv) d) l [].

Definition row_record (names : list string) (r : list cell) : record :=
  dict_of_list (combine names (map VCell r)).

(* ------------------------------------------------------------------ *)
(** * The baseline *)

(** The baseline JSON object: its three known keys (absent or present)
    and any other keys it carries. *)
Record Baseline : Type := mkBaseline {
  b_columns : option (list string);
  b_dtypes : option (list (string * string));
  b_primary_key : option (list string);
  b_other_keys : list string
}.

(** Truthiness of the parsed JSON: [None] and the empty dict are falsy. *)
Definition baseline_truthy (b : option Baseline) : bool :=
  match b with
  | None => false
  | Some b =>
      match b_columns b, b_dtypes b, b_primary_key b, b_other_keys b with
      | None, None, None, [] => false
      | _, _, _, _ => true
      end
  end.

(* ------------------------------------------------------------------ *)
(** * String helpers *)

(** [str.lower()] on the ASCII letters. *)
Definition ascii_lower (a : ascii) : ascii :=
  let n := nat_of_ascii a in
  if (65 <=? n)%nat && (n <=? 90)%nat then ascii_of_nat (n + 32) else a.

Fixpoint str_lower (s : string) : string :=
  match s with
  | EmptyString => EmptyString
  | String a s' => String (ascii_lower a) (str_lower s')
  end.

(** [sub in s] *)
Definition str_contains (sub s : string) : bool :=
  match String.index 0 sub s with Some _ => true | None => false end.

Definition is_upper (a : ascii) : bool :=
  let n := nat_of_ascii a in (65 <=? n)%nat && (n <=? 90)%nat.

Definition is_digit (a : ascii) : bool :=
  let n := nat_of_ascii a in (48 <=? n)%nat && (n <=? 57)%nat.

(** [re.search(r"[A-Z]\d", s)] *)
Fixpoint has_upper_digit (s : string) : bool :=
  match s with
  | String a ((String b _) as s') => (is_upper a && is_digit b) || has_upper_digit s'
  | _ => false
  end.

(** [str.strip()] of ASCII white space. *)
Definition is_space (a : ascii) : bool :=
  let n := nat_of_ascii a in (n =? 32)%nat || ((9 <=? n)%nat && (n <=? 13)%nat).

Fixpoint lstrip (s : string) : string :=
  match s with
  | String a s' => if is_space a then lstrip s' else s
  | EmptyString => EmptyString
  end.

Fixpoint str_rev (s : string) (acc : string) : string :=
  match s with
  | EmptyString => acc
  | String a s' => str_rev s' (String a acc)
  end.

Definition strip (s : string) : string :=
  str_rev (lstrip (str_rev (lstrip s) EmptyString)) EmptyString.

(** [s.split(":", 1)[1]]: [None] when there is no colon (IndexError). *)
Fixpoint after_colon (s : string) : option string :=
  match s with
  | EmptyString => None
  | String a s' => if Ascii.eqb a ":"%char then Some s' else after_colon s'
  end.

(* ------------------------------------------------------------------ *)
(** * Sorting and percentiles *)

Fixpoint insert_by {A} (le : A -> A -> bool) (x : A) (l : list A) : list A :=
  match l with
  | [] => [x]
  | y :: l' => if le x y then x :: l else y :: insert_by le x l'
  end.

(** A stable insertion sort. *)
Definition sort_by {A} (le : A -> A -> bool) (l : list A) : list A :=
  fold_right (insert_by le) [] (rev l) .

(** [np.percentile(s, p)] with numpy's default linear interpolation:
    virtual index [h = p/100 * (n-1)], interpolated between its floor and
    the next element. *)
Definition percentile (s : list Q) (p : Q) : Q :=
  let a := sort_by Qle_bool s in
  let n := length a in
  let h := p / 100 * inject_Z (Z.of_nat (n - 1)) in
  let k := Z.to_nat (Qfloor h) in
  let frac := h - inject_Z (Z.of_nat k) in
  let lo := nth k a 0 in
  let hi := nth (Nat.min (S k) (n - 1)) a lo in
  lo + frac * (hi - lo).

(** [x < y] on rationals. *)
Definition Qlt_bool (x y : Q) : bool := negb (Qle_bool y x).

(** [round(x, 3)] *)
Definition round3 (q : Q) : Q := Qmake (round_half_even (q * 1000)) 1000.

(** The mean of a boolean Series ([Series.mean()] on a non-empty one). *)
Definition bool_mean (l : list bool) : Q :=
  inject_Z (Z.of_nat (count_true l)) / inject_Z (Z.of_nat (length l)).

Fixpoint dedup (l : list string) : list string :=
  match l with
  | [] => []
  | x :: l' => x :: filter (fun y => negb (String.eqb x y)) (dedup l')
  end.

Fixpoint map_opt {A B} (f : A -> option B) (l : list A) : option (list B) :=
  match l with
  | [] => Some []
  | x :: l' =>
      match f x, map_opt f l' with
      | Some y, Some ys => Some (y :: ys)
      | _, _ => None
      end
  end.

Definition filter_mask {A} (m : list bool) (l : list A) : list A :=
  map snd (filter fst (combine m l)).

(* ------------------------------------------------------------------ *)
(** * The seven checks of run_audit.py *)

Section Checks.

(** Behaviour of the libraries the checks call, left abstract:
    [str] of a float and of a timestamp, [pd.to_numeric] and
    [pd.to_datetime(..., utc=True)] of a single non-null value
    ([None] = coerced to NaN / NaT), and the two compiled patterns of
    [SEMANTIC_PATTERNS] under [str.match]. *)
Variable num_str : Q -> string.
Variable time_str : Z -> string.
Variable parse_number : string -> option Q.
Variable parse_timestamp : cell -> option Z.
Variable email_match : string -> bool.
Variable postcode_match : string -> bool.

(** [check_schema] *)
Definition check_schema (df : DataFrame) (baseline : option Baseline) : list CheckResult :=
  match baseline with
  | Some b =>
      if negb (baseline_truthy baseline) then [] else
      let expected_cols := dedup (match b_columns b with Some l => l | None => [] end) in
      let actual_cols := dedup (df_names df) in
      let missing := filter (fun c => negb (mem_string c actual_cols)) expected_cols in
      let new := filter (fun c => negb (mem_string c expected_cols)) actual_cols in
      let r_missing :=
        match missing with
        | [] => []
        | _ => [mkCheckResult "Missing Columns" "critical"
                 [[("missing"%string, VList (map VStr missing))]]
                 (norm (inject_Z (Z.of_nat (length missing))) 10)]
        end in
      let r_new :=
        match new with
        | [] => []
        | _ => [mkCheckResult "Unexpected Columns" "major"
                 [[("new"%string, VList (map VStr new))]]
                 (norm (inject_Z (Z.of_nat (length new))) 10)]
        end in
      let exp_types := match b_dtypes b with Some l => l | None => [] end in
      let drift :=
        flat_map (fun '(c, exp) =>
          match find_column df c with
          | Some col =>
              let act := dtype_str (col_dtype col) in
              if String.eqb act exp then []
              else [[("column"%string, VStr c); ("expected"%string, VStr exp);
                     ("actual"%string, VStr act)]]
          | None => []
          end) exp_types in
      let r_drift :=
        match drift with
        | [] => []
        | _ => [mkCheckResult "Dtype Drift" "major" drift
                 (norm (inject_Z (Z.of_nat (length drift))) 15)]
        end in
      r_missing ++ r_new ++ r_drift
  | None => []
  end.

(** [check_primary_key]; [None] is the [KeyError] pandas raises when a
    key column is absent. *)
Definition check_primary_key (df : DataFrame) (pk : list string) : option (list CheckResult) :=
  match pk with
  | [] => Some []
  | _ =>
      match map_opt (find_column df) pk with
      | None => None
      | Some kcols =>
          let keys := rows_of kcols (df_nrows df) in
          let dupes := count_true (dup_first_mask keys) in
          if (0 <? dupes)%nat then
            let ex := map (row_record pk) (firstn 5 (filter_mask (dup_any_mask keys) keys)) in
            Some [mkCheckResult "Primary Key Uniqueness" "critical"
                    [[("duplicates"%string, VInt (Z.of_nat dupes));
                      ("examples"%string, VList (map VDict ex))]]
                    (norm (inject_Z (Z.of_nat dupes)) (cap_of (df_nrows df) (2 # 100)))]
          else Some []
      end
  end.

(** [check_missing_duplicates_types] *)
Definition check_missing_duplicates_types (df : DataFrame) : list CheckResult :=
  let miss := map (fun col => (col_name col, count_true (map is_null (col_cells col))))
                  (df_columns df) in
  let miss := filter (fun p => (0 <? snd p)%nat) miss in
  let r_missing :=
    match miss with
    | [] => []
    | _ =>
        let d := dict_of_list (map (fun p => (fst p, VInt (Z.of_nat (snd p)))) miss) in
        [mkCheckResult "Missing Values" "major"
           (map (fun kv => [("column"%string, VStr (fst kv)); ("missing"%string, snd kv)]) d)
           (norm (inject_Z (Z.of_nat (list_sum (map snd miss)))) (cap_of (df_nrows df) (5 # 100)))]
    end in
  let dups := count_true (dup_first_mask (df_rows df)) in
  let r_dups :=
    if (0 <? dups)%nat then
      [mkCheckResult "Duplicate Rows" "major" [[("duplicates"%string, VInt (Z.of_nat dups))]]
         (norm (inject_Z (Z.of_nat dups)) (cap_of (df_nrows df) (3 # 100)))]
    else [] in
  r_missing ++ r_dups.

(** [is_numeric_dtype] *)
Definition is_numeric_dtype (t : dtype) : bool :=
  match t with DInt64 | DFloat64 | DBool => true | _ => false end.

(** [is_datetime64_any_dtype] *)
Definition is_datetime64_any_dtype (t : dtype) : bool :=
  match t with DDatetime | DDatetimeUTC => true | _ => false end.

(** [is_string_dtype] of a Series (pandas 2): an object Series holding only
    [str] values, a categorical whose categories are strings, or the
    string dtype. *)
Definition is_str_cell (c : cell) : bool := match c with CStr _ => true | _ => false end.

Definition is_string_dtype (col : column) : bool :=
  match col_dtype col with
  | DObject => forallb is_str_cell (col_cells col)
  | DCategory =>
      let cats := filter (fun c => negb (is_null c)) (col_cells col) in
      negb (Nat.eqb (length cats) 0) && forallb is_str_cell cats
  | DString => true
  | _ => false
  end.

(** [pd.to_numeric(value, errors="coerce")] *)
Definition to_numeric_cell (c : cell) : option Q :=
  match c with
  | CNull => None
  | CNum q => Some q
  | CBool b => Some (if b then 1 else 0)
  | CStr s => parse_number s
  | CTime t => Some (inject_Z t)
  end.

Fixpoint dropna {A} (l : list (option A)) : list A :=
  match l with
  | [] => []
  | Some x :: l' => x :: dropna l'
  | None :: l' => dropna l'
  end.

(** The per-column body of [check_outliers_iqr]; [None] is the
    [TypeError] numpy raises when interpolating boolean quartiles. *)
Definition iqr_column (col : column) : option (option CheckResult) :=
  if negb (is_numeric_dtype (col_dtype col)) then Some None else
  let s := dropna (map to_numeric_cell (col_cells col)) in
  if (length s <? 10)%nat then Some None else
  match col_dtype col with
  | DBool => None
  | _ =>
      let q1 := percentile s 25 in
      let q3 := percentile s 75 in
      let iqr := Qmax (q3 - q1) (1 # 1000000000) in
      let lo := q1 - (3 # 2) * iqr in
      let hi := q3 + (3 # 2) * iqr in
      let cnt := count_true (map (fun x => Qlt_bool x lo || Qlt_bool hi x) s) in
      if (0 <? cnt)%nat then
        Some (Some (mkCheckResult ("IQR Outliers: " ++ col_name col) "major"
                 [[("count"%string, VInt (Z.of_nat cnt)); ("lo"%string, VNum lo);
                   ("hi"%string, VNum hi)]]
                 (norm (inject_Z (Z.of_nat cnt)) (cap_of (length s) (5 # 100)))))
      else Some None
  end.

(** [check_outliers_iqr] *)
Definition check_outliers_iqr (df : DataFrame) : option (list CheckResult) :=
  match map_opt iqr_column (df_columns df) with
  | Some rs => Some (dropna rs)
  | None => None
  end.

(** [astype(str)] of a cell. *)
Definition cell_str (c : cell) : string :=
  match c with
  | CNull => "nan"
  | CNum q => num_str q
  | CStr s => s
  | CBool b => if b then "True" else "False"
  | CTime t => time_str t
  end.

(** [value_counts()] before normalisation: distinct values with their
    counts, in first-occurrence order. *)
Fixpoint tally (l : list string) : list (string * nat) :=
  match l with
  | [] => []
  | x :: l' =>
      let t := tally l' in
      let c := S (count_occ string_dec l' x) in
      (x, c) :: filter (fun p => negb (String.eqb (fst p) x)) t
  end.

(** [value_counts(normalize=True)]: sorted by decreasing count. *)
Definition value_counts_norm (l : list string) : list (string * Q) :=
  let t := sort_by (fun p q => Nat.leb (snd q) (snd p)) (tally l) in
  map (fun p => (fst p, inject_Z (Z.of_nat (snd p)) / inject_Z (Z.of_nat (length l)))) t.

(** [check_rare_categories] with its default [min_ratio = 0.01]. *)
Definition rare_column (min_ratio : Q) (col : column) : option CheckResult :=
  if is_string_dtype col || match col_dtype col with DCategory => true | _ => false end then
    let vc := value_counts_norm (map cell_str (col_cells col)) in
    let rare := filter (fun p => Qlt_bool (snd p) min_ratio) vc in
    match rare with
    | [] => None
    | _ =>
        Some (mkCheckResult ("Rare Categories: " ++ col_name col) "minor"
                [[("n_rare"%string, VInt (Z.of_nat (length rare)));
                  ("examples"%string,
                    VDict (map (fun p => (fst p, VNum (snd p))) (firstn 5 rare)))]]
                (norm (inject_Z (Z.of_nat (length rare))) 50))
    end
  else None.

Definition check_rare_categories (df : DataFrame) : list CheckResult :=
  dropna (map (rare_column (1 # 100)) (df_columns df)).

(** One pattern of [check_semantic_regex] on a column's sample. *)
Definition semantic_finding (kind : string) (matcher : string -> bool)
    (c : string) (sample : list string) : list CheckResult :=
  let bad := bool_mean (map (fun s => negb (matcher s)) sample) in
  if Qlt_bool (3 # 10) bad then
    [mkCheckResult ("Semantic Violations (" ++ kind ++ ") in " ++ c) "major"
       [[("fail_rate"%string, VNum (round3 bad))]] (Qmin 1 bad)]
  else [].

Definition semantic_column (col : column) : list CheckResult :=
  if is_string_dtype col then
    let sample := map cell_str (filter (fun x => negb (is_null x)) (col_cells col)) in
    match sample with
    | [] => []
    | _ =>
        let like_email := Qlt_bool (1 # 2) (bool_mean (map (str_contains "@") sample)) in
        let like_pc := Qlt_bool (1 # 2) (bool_mean (map has_upper_digit sample)) in
        (if like_email then semantic_finding "email" email_match (col_name col) sample else [])
        ++ (if like_pc then semantic_finding "UK postcode" postcode_match (col_name col) sample
            else [])
    end
  else [].

(** [check_semantic_regex] *)
Definition check_semantic_regex (df : DataFrame) : list CheckResult :=
  flat_map semantic_column (df_columns df).

(** [pd.to_datetime(df[c], errors="coerce", utc=True)]: a datetime column
    keeps its instants, a boolean column cannot be converted and is coerced
    to NaT as a whole, any other value is coerced one by one. *)
Definition to_datetime_col (col : column) : list (option Z) :=
  match col_dtype col with
  | DDatetime | DDatetimeUTC =>
      map (fun c => match c with CTime t => Some t | _ => None end) (col_cells col)
  | DBool => map (fun _ => None) (col_cells col)
  | _ => map (fun c => match c with CNull => None | _ => parse_timestamp c end) (col_cells col)
  end.

Definition is_date_column (col : column) : bool :=
  str_contains "date" (str_lower (col_name col)) || is_datetime64_any_dtype (col_dtype col).

Definition count_none {A} (l : list (option A)) : nat :=
  count_true (map (fun o => match o with None => true | Some _ => false end) l).

(** The [Invalid Dates] finding of one parsed column. *)
Definition invalid_dates (n : nat) (c : string) (s : list (option Z)) : list CheckResult :=
  let invalid := count_none s in
  if (0 <? invalid)%nat then
    [mkCheckResult ("Invalid Dates: " ++ c) "minor" [[("invalid"%string, VInt (Z.of_nat invalid))]]
       (norm (inject_Z (Z.of_nat invalid)) (cap_of n (5 # 100)))]
  else [].

(** [ship < order] on two parsed values; NaT compares false. *)
Definition ts_lt (a b : option Z) : bool :=
  match a, b with Some x, Some y => Z.ltb x y | _, _ => false end.

(** [check_dates] *)
Definition check_dates (df : DataFrame) : list CheckResult :=
  let date_cols := filter is_date_column (df_columns df) in
  let parsed := map (fun col => (col_name col, to_datetime_col col)) date_cols in
  let r_invalid := flat_map (fun p => invalid_dates (df_nrows df) (fst p) (snd p)) parsed in
  let r_temporal :=
    match assoc_get "order_date" parsed, assoc_get "ship_date" parsed with
    | Some o, Some s =>
        let bad := count_true (map (fun p => ts_lt (fst p) (snd p)) (combine s o)) in
        if (0 <? bad)%nat then
          [mkCheckResult "Temporal Rule: ship_date ≥ order_date" "major"
             [[("violations"%string, VInt (Z.of_nat bad))]]
             (norm (inject_Z (Z.of_nat bad)) (cap_of (df_nrows df) (5 # 100)))]
        else []
    | _, _ => []
    end in
  r_invalid ++ r_temporal.

(** The checks as [run] (app.py) and [main] (run_audit.py) chain them;
    [None] when a check raises. *)
Definition run_checks (df : DataFrame) (baseline : option Baseline) : option (list CheckResult) :=
  let r_pk :=
    match baseline with
    | Some b =>
        if baseline_truthy baseline then
          match b_primary_key b with
          | Some pk => check_primary_key df pk
          | None => Some []
          end
        else Some []
    | None => Some []
    end in
  match r_pk, check_outliers_iqr df with
  | Some pks, Some outs =>
      Some (check_schema df baseline ++ pks ++ check_missing_duplicates_types df ++ outs
            ++ check_rare_categories df ++ check_semantic_regex df ++ check_dates df)
  | _, _ => None
  end.

End Checks.

(* ------------------------------------------------------------------ *)
(** * The enrichment stage of [run] (app.py) *)

Section Enrichment.

(** [pd.to_numeric] of a single string, and the [:.3f] formatting. *)
Variable parse_number : string -> option Q.
Variable fmt3 : Q -> string.

Definition dup_keys : list string := ["row_indices"; "sample_rows"; "columns"]%string.
Definition iqr_keys : list string :=
  ["column"; "row_indices"; "sample_values"; "explain"]%string.

Definition int_list (l : list nat) : value := VList (map (fun i => VInt (Z.of_nat i)) l).

(** Sets the three duplicate-evidence keys on the sole issue record. *)
Definition dup_evidence (df : DataFrame) (info : record) : record :=
  let rows := df_rows df in
  let mask := dup_any_mask rows in
  let info := dict_set "row_indices" (int_list (mask_indices mask)) info in
  let info := dict_set "sample_rows"
                (VList (map (fun r => VDict (row_record (df_names df) r))
                            (firstn 10 (filter_mask mask rows)))) info in
  dict_set "columns" (VList (map VStr (df_names df))) info.

(** The loop [for r in results: if r.name == "Duplicate Rows" and r.issues: ...; break]. *)
Fixpoint enrich_first_dup (df : DataFrame) (results : list CheckResult) : list CheckResult :=
  match results with
  | [] => []
  | r :: rs =>
      match issues r with
      | info :: rest =>
          if String.eqb (name r) "Duplicate Rows" then
            mkCheckResult (name r) (severity r) (dup_evidence df info :: rest) (impact r) :: rs
          else r :: enrich_first_dup df rs
      | [] => r :: enrich_first_dup df rs
      end
  end.

(** The duplicate enrichment, done only when [df.duplicated(keep=False)]
    selects a row. *)
Definition enrich_dups (df : DataFrame) (results : list CheckResult) : list CheckResult :=
  if existsb (fun b => b) (dup_any_mask (df_rows df)) then enrich_first_dup df results
  else results.

(** A bound read back with [info.get]: a number, otherwise the comparison
    raises ([None]). *)
Definition bound_of (v : option value) : option Q :=
  match v with
  | Some (VNum q) => Some q
  | Some (VInt z) => Some (inject_Z z)
  | _ => None
  end.

Definition explain_text (col : string) (lo hi : Q) : string :=
  "Outliers flagged using the IQR rule: values lower than Q1−1.5×IQR or higher than Q3+1.5×IQR. "
  ++ "For “" ++ col ++ "”, the low/high cutoffs are " ++ fmt3 lo ++ " / " ++ fmt3 hi ++ ".".

Definition outside (lo hi : Q) (x : option Q) : bool :=
  match x with Some v => Qlt_bool v lo || Qlt_bool hi v | None => false end.

(** The evidence of one IQR finding on column [col]. *)
Definition iqr_evidence (col : column) (lo hi : Q) (info : record) : record :=
  let s := map (to_numeric_cell parse_number) (col_cells col) in
  let mask := map (outside lo hi) s in
  let idxs := mask_indices mask in
  let flagged := filter_mask mask (combine (seq 0 (length s)) (map (fun o => match o with Some v => v | None => 0 end) s)) in
  let by_abs := sort_by (fun p q => Qle_bool (Qabs (snd q)) (Qabs (snd p))) flagged in
  let sample := map (fun p => VDict [("index"%string, VInt (Z.of_nat (fst p)));
                                     ("value"%string, VNum (snd p))]) (firstn 10 by_abs) in
  let info := dict_set "column" (VStr (col_name col)) info in
  let info := dict_set "row_indices" (int_list idxs) info in
  let info := dict_set "sample_values" (VList sample) info in
  dict_set "explain" (VStr (explain_text (col_name col) lo hi)) info.

(** The body of the IQR enrichment loop for one finding. *)
Definition enrich_iqr (df : DataFrame) (r : CheckResult) : option CheckResult :=
  if String.prefix "IQR Outliers" (name r) then
    let col := match after_colon (name r) with Some s => strip s | None => EmptyString end in
    match col, find_column df col, issues r with
    | EmptyString, _, _ => Some r
    | _, Some column, info :: rest =>
        match bound_of (dict_get "lo" info), bound_of (dict_get "hi" info) with
        | Some lo, Some hi =>
            Some (mkCheckResult (name r) (severity r) (iqr_evidence column lo hi info :: rest)
                   (impact r))
        | _, _ => None
        end
    | _, _, _ => Some r
    end
  else Some r.

(** The whole enrichment stage; [None] when it raises. *)
Definition enrich (df : DataFrame) (results : list CheckResult) : option (list CheckResult) :=
  map_opt (enrich_iqr df) (enrich_dups df results).

End Enrichment.

(** The whole engine of [run]: the checks, then the enrichment. *)
Definition audit num_str time_str parse_number parse_timestamp email_match postcode_match fmt3
    (df : DataFrame) (baseline : option Baseline) : option (list CheckResult) :=
  match run_checks num_str time_str parse_number parse_timestamp email_match postcode_match
          df baseline with
  | Some rs => enrich parse_number fmt3 df rs
  | None => None
  end.

(* ------------------------------------------------------------------ *)
(** * Duplicate counts as the spec words them *)

(** The number of rows whose values equal those of an earlier row. *)
Definition count_equal_earlier (rows : list (list cell)) : nat :=
  length (filter (fun i => existsb (fun j => row_eqb (nth j rows []) (nth i rows [])) (seq 0 i))
                 (seq 0 (length rows))).

(** The number of rows whose values equal those of at least one other row. *)
Definition count_sharing (rows : list (list cell)) : nat :=
  length (filter (fun i => existsb (fun j => negb (Nat.eqb j i)
                                           && row_eqb (nth j rows []) (nth i rows []))
                                   (seq 0 (length rows)))
                 (seq 0 (length rows))).

(** A frame whose key column [id] repeats the value 1 in rows 0, 1 and 3. *)
Definition id_column : column :=
  mkColumn "id" DInt64 [CNum 1; CNum 1; CNum 2; CNum 1].

Definition pk_frame : DataFrame :=
  mkDataFrame [id_column; mkColumn "name" DObject [CStr "a"; CStr "b"; CStr "c"; CStr "d"]] 4.

(* ------------------------------------------------------------------ *)
(** * Frame conditions of the enrichment stage *)

(** [d'] agrees with [d] on every key outside [ks]. *)
Definition keys_only_set (ks : list string) (d d' : record) : Prop :=
  forall k, ~ In k ks -> dict_get k d' = dict_get k d.

(** Every key of [ks] is present in [d']. *)
Definition keys_set (ks : list string) (d' : record) : Prop :=
  forall k, In k ks -> dict_get k d' <> None.

(** How the enrichment stage may relate a finding [r] to its output [r']:
    same name, severity and impact; either untouched, or the first issue
    record of a "Duplicate Rows" / "IQR Outliers..." finding gains that
    rule's evidence keys and keeps every other key. *)
Definition enrich_related (r r' : CheckResult) : Prop :=
  name r' = name r /\ severity r' = severity r /\ impact r' = impact r /\
  (r' = r \/
   exists info info' rest ks,
     issues r = info :: rest /\ issues r' = info' :: rest /\
     ((name r = "Duplicate Rows"%string /\ ks = dup_keys)
      \/ (String.prefix "IQR Outliers" (name r) = true /\ ks = iqr_keys))
     /\ keys_only_set ks info info' /\ keys_set ks info').

(* ------------------------------------------------------------------ *)
(** ** Sample inputs and auxiliary predicates *)

Definition sample_findings : list CheckResult :=
  [mkCheckResult "Primary Key Uniqueness" "critical" [[("duplicates"%string, VInt 2)]] (1 # 5);
   mkCheckResult "Duplicate Rows" "major" [[("duplicates"%string, VInt 2)]] (1 # 5);
   mkCheckResult "Invalid Dates: order_date" "minor" [[("invalid"%string, VInt 1)]] (1 # 10)].

Definition example_values : list Q := [1; 2; 3; 4; 5; 6; 7; 8; 9; 100].

Definition example_frame : DataFrame :=
  mkDataFrame [mkColumn "amount" DFloat64 (map CNum example_values)] 10.

(** A finding as the data model requires it: some issue, impact in [0,1]. *)
Definition emitted_ok (r : CheckResult) : Prop :=
  issues r <> [] /\ 0 <= impact r <= 1.

Definition opt_all {A} (P : A -> Prop) (o : option (list A)) : Prop :=
  match o with Some l => Forall P l | None => True end.

Definition date_frame : DataFrame :=
  mkDataFrame [mkColumn "order_date" DObject [CStr "2024-01-02"; CStr "soon"; CNull]] 3.

(** The duplicate enrichment either keeps a finding or rewrites the first
    issue record of a "Duplicate Rows" finding. *)
Definition dup_step (df : DataFrame) (r r1 : CheckResult) : Prop :=
  r1 = r \/
  (name r = "Duplicate Rows"%string /\
   exists info rest, issues r = info :: rest
     /\ r1 = mkCheckResult (name r) (severity r) (dup_evidence df info :: rest) (impact r)).

Definition not_dup_finding (r : CheckResult) : Prop := name r <> "Duplicate Rows"%string.

Definition dup_frame : DataFrame :=
  mkDataFrame [id_column; mkColumn "name" DObject [CStr "a"; CStr "a"; CStr "c"; CStr "a"]] 4.

Definition iqr_findings : list CheckResult :=
  [mkCheckResult "IQR Outliers: amount" "major"
     [[("count"%string, VInt 1); ("lo"%string, VNum (-7 # 2)); ("hi"%string, VNum (29 # 2))]]
     (1 # 10);
   mkCheckResult "Duplicate Rows" "major" [[("duplicates"%string, VInt 1)]] (1 # 10);
   mkCheckResult "Missing Values" "major" [[("column"%string, VStr "amount")]] (1 # 10)].

(* ================================================================== *)
(** * Properties *)

(* ------------------------------------------------------------------ *)
(** ** Rounding and the scorer *)

Lemma round_half_even_comp (p q : Q) : p == q -> round_half_even p = round_half_even q.
Proof.
  intros H. unfold round_half_even.
  assert (Hf : Qfloor p = Qfloor q) by (apply Qfloor_comp; exact H).
  rewrite Hf.
  assert (Hc : (p - inject_Z (Qfloor q) ?= 1 # 2) = (q - inject_Z (Qfloor q) ?= 1 # 2)).
  { apply Qcompare_comp; [rewrite H; reflexivity | reflexivity]. }
  rewrite Hc. reflexivity.
Qed.

Lemma round1_comp (p q : Q) : p == q -> round1 p = round1 q.
Proof.
  intros H. unfold round1. f_equal. apply round_half_even_comp. rewrite H. reflexivity.
Qed.

(** Rounding to nearest moves a value by at most one half. *)
Lemma round_half_even_near (q : Q) :
  q - (1 # 2) <= inject_Z (round_half_even q) <= q + (1 # 2).
Proof.
  unfold round_half_even.
  pose proof (Qfloor_le q) as Hle. pose proof (Qlt_floor q) as Hlt.
  rewrite inject_Z_plus in Hlt.
  destruct (Qcompare_spec (q - inject_Z (Qfloor q)) (1 # 2)) as [Heq | Hl | Hg].
  - destruct (Z.even (Qfloor q)).
    + split; lra.
    + rewrite inject_Z_plus. change (inject_Z 1) with 1 in *. split; lra.
  - split; lra.
  - rewrite inject_Z_plus. change (inject_Z 1) with 1 in *. split; lra.
Qed.

Lemma round_half_even_mono (p q : Q) : p <= q -> (round_half_even p <= round_half_even q)%Z.
Proof.
  intros Hpq.
  destruct (Z_le_gt_dec (round_half_even p) (round_half_even q)) as [Hok | Hgt]; [exact Hok |].
  exfalso.
  assert (H1 : (round_half_even q + 1 <= round_half_even p)%Z) by lia.
  rewrite Zle_Qle, inject_Z_plus in H1. change (inject_Z 1) with 1 in H1.
  pose proof (round_half_even_near p). pose proof (round_half_even_near q).
  assert (Heq : p == q) by lra.
  rewrite (round_half_even_comp p q Heq) in Hgt. lia.
Qed.

Lemma round1_mono (p q : Q) : p <= q -> round1 p <= round1 q.
Proof.
  intros H. unfold round1, Qle; simpl.
  pose proof (round_half_even_mono (p * 10) (q * 10)) as Hm.
  assert (Hpq : p * 10 <= q * 10) by lra.
  specialize (Hm Hpq). lia.
Qed.

Lemma severity_weight_spec (sev : string) : severity_weight sev = spec_weight sev.
Proof.
  unfold severity_weight, spec_weight, SEVERITY_WEIGHTS; simpl.
  destruct (String.eqb sev "critical"); [reflexivity |].
  destruct (String.eqb sev "major"); [reflexivity |].
  destruct (String.eqb sev "minor"); reflexivity.
Qed.

Lemma severity_weight_pos (sev : string) : 1 <= severity_weight sev <= 3.
Proof.
  rewrite severity_weight_spec. unfold spec_weight.
  destruct (String.eqb sev "critical"); [lra |].
  destruct (String.eqb sev "major"); lra.
Qed.

Lemma penalty_loop_spec (acc : Q) (rs : list CheckResult) :
  penalty_loop acc rs == acc + spec_penalty rs.
Proof.
  revert acc. induction rs as [| r rs IH]; intros acc; simpl.
  - lra.
  - rewrite IH, severity_weight_spec. lra.
Qed.

Lemma spec_penalty_app (rs1 rs2 : list CheckResult) :
  spec_penalty (rs1 ++ rs2) == spec_penalty rs1 + spec_penalty rs2.
Proof.
  induction rs1 as [| r rs1 IH]; simpl.
  - lra.
  - rewrite IH. lra.
Qed.

Lemma finding_penalty_nonneg (r : CheckResult) : 0 <= impact r -> 0 <= finding_penalty r.
Proof.
  intros H. unfold finding_penalty. pose proof (severity_weight_pos (severity r)).
  apply Qmult_le_0_compat; [apply Qmult_le_0_compat; lra | lra].
Qed.

Lemma spec_penalty_nonneg (rs : list CheckResult) :
  Forall (fun r => 0 <= impact r) rs -> 0 <= spec_penalty rs.
Proof.
  induction 1 as [| r rs Hr _ IH]; simpl; [lra |].
  pose proof (finding_penalty_nonneg r Hr) as Hp. unfold finding_penalty in Hp.
  rewrite severity_weight_spec in Hp. lra.
Qed.

Lemma wf_impacts_nonneg (rs : list CheckResult) :
  Forall finding_wf rs -> Forall (fun r => 0 <= impact r) rs.
Proof.
  intros H. eapply Forall_impl; [| exact H]. intros r [_ [Hr _]]. exact Hr.
Qed.

(** C1: for every finding list whose findings have one of the three
    severities and an impact in [0,1], the computed score is
    round(clamp(100 - sum of weight x impact x 10, 0, 100), 1) with the
    weights critical = 3, major = 2, minor = 1. *)
Theorem compute_score_formula (rs : list CheckResult) (Hwf : Forall finding_wf rs) :
  compute_score rs = spec_score rs.
Proof.
  unfold compute_score, spec_score. apply round1_comp.
  pose proof (spec_penalty_nonneg rs (wf_impacts_nonneg rs Hwf)) as Hp.
  rewrite penalty_loop_spec.
  rewrite (Q.min_r 100 (100 - spec_penalty rs)) by lra.
  rewrite Qplus_0_l. reflexivity.
Qed.

(** C5: adding a finding (impact in [0,1]) anywhere in a finding list never
    increases the score, and the empty list scores exactly 100. *)
Theorem compute_score_antitone (rs1 rs2 : list CheckResult) (f : CheckResult)
    (Hf : 0 <= impact f <= 1) :
  compute_score (rs1 ++ f :: rs2) <= compute_score (rs1 ++ rs2) /\ compute_score [] == 100.
Proof.
  split.
  - unfold compute_score. apply round1_mono.
    rewrite !penalty_loop_spec, !spec_penalty_app. simpl.
    pose proof (finding_penalty_nonneg f (proj1 Hf)) as Hp.
    unfold finding_penalty in Hp. rewrite severity_weight_spec in Hp.
    apply Q.max_le_compat_l. lra.
  - reflexivity.
Qed.

(** C6 (as amended): at equal impact a critical finding's penalty is 3/2
    of a major one's (30 x impact against 20 x impact) and three times a
    minor one's. *)
Theorem critical_penalty_ratio (n1 n2 n3 : string) (is1 is2 is3 : list record) (i : Q) :
  finding_penalty (mkCheckResult n1 "critical" is1 i)
    == (3 # 2) * finding_penalty (mkCheckResult n2 "major" is2 i)
  /\ finding_penalty (mkCheckResult n1 "critical" is1 i)
    == 3 * finding_penalty (mkCheckResult n3 "minor" is3 i).
Proof.
  unfold finding_penalty, severity_weight. simpl. split; lra.
Qed.

(** C6 counterexample: at impact 1 a critical finding costs 30 points and
    a major one 20, so the critical penalty is not three times the major. *)
Lemma critical_not_thrice_major :
  ~ (finding_penalty (mkCheckResult "Primary Key Uniqueness" "critical" [] 1)
     == 3 * finding_penalty (mkCheckResult "Temporal Rule: ship_date ≥ order_date" "major" [] 1)).
Proof.
  intro H. vm_compute in H. discriminate H.
Qed.

Lemma compute_score_formula_witness :
  Forall finding_wf sample_findings /\ compute_score sample_findings = spec_score sample_findings.
Proof.
  assert (H : Forall finding_wf sample_findings).
  { unfold sample_findings, finding_wf; simpl.
    repeat constructor; simpl; try lra; tauto. }
  split; [exact H | exact (compute_score_formula sample_findings H)].
Defined.

Lemma compute_score_antitone_witness :
  0 <= impact (mkCheckResult "Missing Values" "major" [] (1 # 2)) <= 1
  /\ compute_score (sample_findings ++ mkCheckResult "Missing Values" "major" [] (1 # 2) :: [])
     <= compute_score (sample_findings ++ [])
  /\ compute_score [] == 100.
Proof.
  assert (H : 0 <= impact (mkCheckResult "Missing Values" "major" [] (1 # 2)) <= 1)
    by (simpl; lra).
  split; [exact H | exact (compute_score_antitone sample_findings [] _ H)].
Defined.

(* ------------------------------------------------------------------ *)
(** ** The IQR rule on the spec's sample *)

(** C4: on [1,...,9,100] the IQR check computes Q1 = 3.25, Q3 = 7.75,
    IQR = 4.5, lo = -3.5 and hi = 14.5, and flags exactly the value 100. *)
Theorem iqr_example (parse_number : string -> option Q) :
  let q1 := percentile example_values 25 in
  let q3 := percentile example_values 75 in
  let iqr := Qmax (q3 - q1) (1 # 1000000000) in
  let lo := q1 - (3 # 2) * iqr in
  let hi := q3 + (3 # 2) * iqr in
  q1 == 13 # 4 /\ q3 == 31 # 4 /\ iqr == 9 # 2 /\ lo == -7 # 2 /\ hi == 29 # 2
  /\ filter (fun x => Qlt_bool x lo || Qlt_bool hi x) example_values = [100]
  /\ check_outliers_iqr parse_number example_frame
     = Some [mkCheckResult "IQR Outliers: amount" "major"
               [[("count"%string, VInt 1); ("lo"%string, VNum lo); ("hi"%string, VNum hi)]]
               (norm 1 (cap_of 10 (5 # 100)))].
Proof.
  cbv zeta. repeat split; vm_compute; reflexivity.
Qed.

(* ------------------------------------------------------------------ *)
(** ** Missing optional inputs *)

(** C8: without a baseline the schema check emits nothing, and with an
    empty primary-key list the primary-key check emits nothing; neither
    raises. *)
Theorem optional_inputs_noop (df : DataFrame) :
  check_schema df None = [] /\ check_primary_key df [] = Some [].
Proof. split; reflexivity. Qed.

(* ------------------------------------------------------------------ *)
(** ** Shape of emitted findings *)

Lemma norm_range (x c : Q) : 0 <= norm x c <= 1.
Proof.
  unfold norm.
  destruct (Q.max_spec 0 (Qmin 1 (x / c))) as [[H1 H2] | [H1 H2]];
  destruct (Q.min_spec 1 (x / c)) as [[H3 H4] | [H3 H4]]; rewrite H2; try rewrite H4 in *; lra.
Qed.

Lemma min_one_range (b : Q) : 0 <= b -> 0 <= Qmin 1 b <= 1.
Proof.
  intros Hb. destruct (Q.min_spec 1 b) as [[H1 H2] | [H1 H2]]; rewrite H2; lra.
Qed.

Lemma dict_set_nonempty (k : string) (v : value) (d : record) : dict_set k v d <> [].
Proof. destruct d as [| [k' v'] d]; simpl; [discriminate |]. destruct (String.eqb k k'); discriminate. Qed.

Lemma dict_of_list_nonempty (l : list (string * value)) : l <> [] -> dict_of_list l <> [].
Proof.
  unfold dict_of_list. destruct l as [| kv l]; [contradiction |]. intros _. simpl.
  assert (Hgen : forall d, d <> [] -> fold_left (fun d kv => dict_set (fst kv) (snd kv) d) l d <> []).
  { induction l as [| kv' l IH]; intros d Hd; simpl; [exact Hd | apply IH, dict_set_nonempty]. }
  apply Hgen; discriminate.
Qed.

Lemma map_opt_all {A B} (f : A -> option B) (P : B -> Prop) (l : list A) (l' : list B) :
  (forall x y, f x = Some y -> P y) -> map_opt f l = Some l' -> Forall P l'.
Proof.
  intros Hf. revert l'. induction l as [| x l IH]; intros l' H; simpl in H.
  - injection H as <-. constructor.
  - destruct (f x) eqn:Ex; [| discriminate]. destruct (map_opt f l) eqn:El; [| discriminate].
    injection H as <-. constructor; [eapply Hf; exact Ex | apply IH; reflexivity].
Qed.

Lemma dropna_all {A} (P : A -> Prop) (l : list (option A)) :
  Forall (fun o => match o with Some x => P x | None => True end) l -> Forall P (dropna l).
Proof.
  induction 1 as [| [x |] l Hx _ IH]; simpl; [constructor | constructor; assumption | exact IH].
Qed.

Ltac finding_ok := constructor; [split; [discriminate | apply norm_range] | constructor].

Lemma check_schema_ok (df : DataFrame) (b : option Baseline) :
  Forall emitted_ok (check_schema df b).
Proof.
  unfold check_schema. destruct b as [b |]; [| constructor].
  destruct (negb (baseline_truthy (Some b))); [constructor |].
  apply Forall_app; split; [| apply Forall_app; split].
  - match goal with |- Forall _ (match ?m with _ => _ end) => destruct m end;
      [constructor | finding_ok].
  - match goal with |- Forall _ (match ?m with _ => _ end) => destruct m end;
      [constructor | finding_ok].
  - match goal with |- Forall _ (match ?m with _ => _ end) => destruct m end;
      [constructor | finding_ok].
Qed.

Lemma check_primary_key_ok (df : DataFrame) (pk : list string) :
  opt_all emitted_ok (check_primary_key df pk).
Proof.
  unfold check_primary_key. destruct pk as [| k pk]; [constructor |].
  destruct (map_opt (find_column df) (k :: pk)) as [kcols |]; [| exact I].
  match goal with |- opt_all _ (if ?c then _ else _) => destruct c end;
    simpl; [finding_ok | constructor].
Qed.

Lemma check_missing_duplicates_types_ok (df : DataFrame) :
  Forall emitted_ok (check_missing_duplicates_types df).
Proof.
  unfold check_missing_duplicates_types. apply Forall_app; split.
  - match goal with |- Forall _ (match ?m with _ => _ end) => destruct m as [| p miss] eqn:Em end;
      [constructor |].
    constructor; [| constructor]. split; [| apply norm_range]. simpl.
    intro H. apply map_eq_nil in H. revert H. apply dict_of_list_nonempty. simpl. discriminate.
  - match goal with |- Forall _ (if ?c then _ else _) => destruct c end; [finding_ok | constructor].
Qed.

Lemma check_outliers_iqr_ok (parse_number : string -> option Q) (df : DataFrame) :
  opt_all emitted_ok (check_outliers_iqr parse_number df).
Proof.
  unfold check_outliers_iqr.
  destruct (map_opt (iqr_column parse_number) (df_columns df)) as [rs |] eqn:E; [| exact I].
  simpl. apply dropna_all.
  eapply map_opt_all; [| exact E]. intros col o Hc. unfold iqr_column in Hc.
  destruct (negb (is_numeric_dtype (col_dtype col))); [injection Hc as <-; exact I |].
  match type of Hc with (if ?c then _ else _) = _ => destruct c end; [injection Hc as <-; exact I |].
  destruct (col_dtype col); try discriminate;
  match type of Hc with (if ?c then _ else _) = _ => destruct c end; injection Hc as <-;
    try exact I; (split; [discriminate | apply norm_range]).
Qed.

Lemma check_rare_categories_ok num_str time_str (df : DataFrame) :
  Forall emitted_ok (check_rare_categories num_str time_str df).
Proof.
  unfold check_rare_categories. apply dropna_all. apply Forall_forall.
  intros o Ho. apply in_map_iff in Ho as [col [<- _]]. unfold rare_column.
  match goal with |- match (if ?c then _ else _) with _ => _ end => destruct c end; [| exact I].
  match goal with |- match (match ?m with _ => _ end) with _ => _ end => destruct m end;
    [exact I | split; [discriminate | apply norm_range]].
Qed.

Lemma semantic_finding_ok (kind : string) (m : string -> bool) (c : string) (sample : list string) :
  Forall emitted_ok (semantic_finding kind m c sample).
Proof.
  unfold semantic_finding.
  destruct (Qlt_bool (3 # 10) _) eqn:E; [| constructor].
  unfold Qlt_bool in E. apply negb_true_iff in E.
  assert (Hlt : 3 # 10 < bool_mean (map (fun s => negb (m s)) sample)).
  { apply Qnot_le_lt. intro H. apply Qle_bool_iff in H. congruence. }
  constructor; [| constructor]. split; [discriminate |]. apply min_one_range. lra.
Qed.

Lemma check_semantic_regex_ok num_str time_str email_match postcode_match (df : DataFrame) :
  Forall emitted_ok (check_semantic_regex num_str time_str email_match postcode_match df).
Proof.
  unfold check_semantic_regex. apply Forall_flat_map, Forall_forall. intros col _.
  unfold semantic_column.
  destruct (is_string_dtype col); [| constructor].
  match goal with |- Forall _ (match ?m with _ => _ end) => destruct m end; [constructor |].
  apply Forall_app; split;
  match goal with |- Forall _ (if ?c then _ else _) => destruct c end;
  try constructor; apply semantic_finding_ok.
Qed.

Lemma check_dates_ok parse_timestamp (df : DataFrame) :
  Forall emitted_ok (check_dates parse_timestamp df).
Proof.
  unfold check_dates. apply Forall_app; split.
  - apply Forall_flat_map, Forall_forall. intros p _. unfold invalid_dates.
    match goal with |- Forall _ (if ?c then _ else _) => destruct c end; [finding_ok | constructor].
  - destruct (assoc_get "order_date" _); [| constructor].
    destruct (assoc_get "ship_date" _); [| constructor].
    match goal with |- Forall _ (if ?c then _ else _) => destruct c end; [finding_ok | constructor].
Qed.

(** C2: every finding returned by any of the seven checks carries a
    non-empty issues list and an impact in [0,1]; a check that finds
    nothing returns no finding at all. *)
Theorem checks_emit_wellformed num_str time_str parse_number parse_timestamp email_match
    postcode_match (df : DataFrame) (baseline : option Baseline) (pk : list string) :
  Forall emitted_ok (check_schema df baseline)
  /\ opt_all emitted_ok (check_primary_key df pk)
  /\ Forall emitted_ok (check_missing_duplicates_types df)
  /\ opt_all emitted_ok (check_outliers_iqr parse_number df)
  /\ Forall emitted_ok (check_rare_categories num_str time_str df)
  /\ Forall emitted_ok (check_semantic_regex num_str time_str email_match postcode_match df)
  /\ Forall emitted_ok (check_dates parse_timestamp df).
Proof.
  split; [apply check_schema_ok |].
  split; [apply check_primary_key_ok |].
  split; [apply check_missing_duplicates_types_ok |].
  split; [apply check_outliers_iqr_ok |].
  split; [apply check_rare_categories_ok |].
  split; [apply check_semantic_regex_ok |].
  apply check_dates_ok.
Qed.

(* ------------------------------------------------------------------ *)
(** ** Duplicate masks *)

Section Duplicates.
Local Open Scope nat_scope.

Lemma Qeq_bool_sym (x y : Q) : Qeq_bool x y = Qeq_bool y x.
Proof.
  apply Bool.eq_iff_eq_true. rewrite !Qeq_bool_iff. split; intro H; symmetry; exact H.
Qed.

Lemma cell_eqb_refl (c : cell) : cell_eqb c c = true.
Proof.
  destruct c; simpl.
  - reflexivity.
  - apply Qeq_bool_refl.
  - apply String.eqb_refl.
  - apply Bool.eqb_reflx.
  - apply Z.eqb_refl.
Qed.

Lemma cell_eqb_sym (a b : cell) : cell_eqb a b = cell_eqb b a.
Proof.
  destruct a, b; simpl; try reflexivity.
  - apply Qeq_bool_sym.
  - apply String.eqb_sym.
  - destruct b, b0; reflexivity.
  - apply Z.eqb_sym.
Qed.

Lemma row_eqb_sym (r1 r2 : list cell) : row_eqb r1 r2 = row_eqb r2 r1.
Proof.
  revert r2. induction r1 as [| a r1 IH]; intros [| b r2]; simpl; try reflexivity.
  rewrite cell_eqb_sym, IH. reflexivity.
Qed.

Lemma in_firstn_nth {A} (l : list A) (i : nat) (d x : A) :
  In x (firstn i l) -> exists j, j < i /\ j < length l /\ nth j l d = x.
Proof.
  intros H. apply (In_nth _ _ d) in H as [j [Hj Hx]].
  rewrite length_firstn in Hj. rewrite nth_firstn in Hx.
  exists j. destruct (Nat.ltb_spec j i); [split; [| split]; lia || exact Hx | lia].
Qed.

Lemma in_skipn_nth {A} (l : list A) (i : nat) (d x : A) :
  In x (skipn i l) -> exists j, i <= j /\ j < length l /\ nth j l d = x.
Proof.
  intros H. apply (In_nth _ _ d) in H as [j [Hj Hx]].
  rewrite length_skipn in Hj. rewrite nth_skipn in Hx.
  exists (i + j). split; [lia | split; [lia | exact Hx]].
Qed.

Lemma dup_first_iff (rows : list (list cell)) (i : nat) :
  i < length rows ->
  (dup_first rows i = true <->
   exists j, j < i /\ row_eqb (nth j rows []) (nth i rows []) = true).
Proof.
  intros Hi. unfold dup_first. rewrite existsb_exists. split.
  - intros [x [Hx Heq]]. apply (in_firstn_nth _ _ []) in Hx as [j [Hj [_ <-]]].
    exists j. split; [exact Hj | rewrite row_eqb_sym; exact Heq].
  - intros [j [Hj Heq]]. exists (nth j rows []). split.
    + assert (Hn : nth j rows [] = nth j (firstn i rows) []).
      { rewrite nth_firstn. destruct (Nat.ltb_spec j i); [reflexivity | lia]. }
      rewrite Hn. apply nth_In. rewrite length_firstn. lia.
    + rewrite row_eqb_sym. exact Heq.
Qed.

Lemma dup_last_iff (rows : list (list cell)) (i : nat) :
  dup_last rows i = true <->
  exists j, i < j /\ j < length rows /\ row_eqb (nth j rows []) (nth i rows []) = true.
Proof.
  unfold dup_last. rewrite existsb_exists. split.
  - intros [x [Hx Heq]]. apply (in_skipn_nth _ _ []) in Hx as [j [Hj [Hl <-]]].
    exists j. split; [lia | split; [exact Hl | rewrite row_eqb_sym; exact Heq]].
  - intros [j [Hj [Hl Heq]]]. exists (nth j rows []). split.
    + replace j with (S i + (j - S i)) by lia. rewrite <- nth_skipn. apply nth_In.
      rewrite length_skipn. lia.
    + rewrite row_eqb_sym. exact Heq.
Qed.

Lemma dup_any_iff (rows : list (list cell)) (i : nat) :
  i < length rows ->
  (dup_any rows i = true <->
   exists j, j < length rows /\ j <> i /\ row_eqb (nth j rows []) (nth i rows []) = true).
Proof.
  intros Hi. unfold dup_any. rewrite orb_true_iff, dup_first_iff, dup_last_iff by exact Hi.
  split.
  - intros [[j [Hj Heq]] | [j [Hj [Hl Heq]]]]; exists j; repeat split; try lia; exact Heq.
  - intros [j [Hl [Hne Heq]]]. destruct (Nat.lt_ge_cases j i).
    + left. exists j. split; [lia | exact Heq].
    + right. exists j. repeat split; try lia. exact Heq.
Qed.


Lemma count_true_map {A} (f : A -> bool) (l : list A) :
  count_true (map f l) = length (filter f l).
Proof.
  unfold count_true. induction l as [| a l IH]; simpl; [reflexivity |].
  destruct (f a); simpl; rewrite IH; reflexivity.
Qed.

Lemma filter_length_le {A} (f g : A -> bool) (l : list A) :
  (forall x, In x l -> f x = true -> g x = true) -> length (filter f l) <= length (filter g l).
Proof.
  induction l as [| a l IH]; intros H; simpl; [lia |].
  assert (IH' : length (filter f l) <= length (filter g l)) 
    by (apply IH; intros y Hy Hfy; apply H; [right; exact Hy | exact Hfy]).
  specialize (H a (or_introl eq_refl)).
  destruct (f a), (g a); simpl; try lia; discriminate (H eq_refl).
Qed.

Lemma filter_length_lt {A} (f g : A -> bool) (l : list A) :
  (forall x, In x l -> f x = true -> g x = true) ->
  (exists x, In x l /\ g x = true /\ f x = false) ->
  length (filter f l) < length (filter g l).
Proof.
  induction l as [| a l IH]; intros H [x [Hx [Hg Hf]]]; [destruct Hx |].
  assert (Hle : length (filter f l) <= length (filter g l))
    by (apply filter_length_le; intros y Hy Hfy; apply H; [right; exact Hy | exact Hfy]).
  destruct Hx as [<- | Hx]; simpl.
  - rewrite Hg, Hf. simpl. lia.
  - assert (Hlt : length (filter f l) < length (filter g l)).
    { apply IH; [intros y Hy Hfy; apply H; [right; exact Hy | exact Hfy] | exists x; auto]. }
    specialize (H a (or_introl eq_refl)).
    destruct (f a), (g a); simpl; try lia; discriminate (H eq_refl).
Qed.

Lemma dup_first_count (rows : list (list cell)) :
  count_true (dup_first_mask rows) = count_equal_earlier rows.
Proof.
  unfold dup_first_mask, count_equal_earlier. rewrite count_true_map. f_equal.
  apply filter_ext_in. intros i Hi. apply in_seq in Hi.
  apply Bool.eq_iff_eq_true. rewrite dup_first_iff by lia. rewrite existsb_exists. split.
  - intros [j [Hj E]]. exists j. rewrite in_seq. split; [lia | exact E].
  - intros [j [Hj E]]. apply in_seq in Hj. exists j. split; [lia | exact E].
Qed.

Lemma dup_any_count (rows : list (list cell)) :
  count_true (dup_any_mask rows) = count_sharing rows.
Proof.
  unfold dup_any_mask, count_sharing. rewrite count_true_map. f_equal.
  apply filter_ext_in. intros i Hi. apply in_seq in Hi.
  apply Bool.eq_iff_eq_true. rewrite dup_any_iff by lia. rewrite existsb_exists. split.
  - intros [j [Hj [Hne E]]]. exists j. rewrite in_seq, E, andb_true_r. split; [lia |].
    apply negb_true_iff, Nat.eqb_neq. exact Hne.
  - intros [j [Hj E]]. apply in_seq in Hj. apply andb_true_iff in E as [Hne E].
    apply negb_true_iff, Nat.eqb_neq in Hne. exists j. split; [lia | split; assumption].
Qed.

(** Every duplicated group has a first occurrence: a row equal to a later
    row but to no earlier one. *)
Lemma first_occurrence (rows : list (list cell)) (i : nat) :
  i < length rows -> dup_first rows i = true ->
  exists j, j < length rows /\ dup_any rows j = true /\ dup_first rows j = false.
Proof.
  induction i as [i IH] using lt_wf_ind. intros Hi Hd.
  apply dup_first_iff in Hd as [j [Hj Heq]]; [| exact Hi].
  destruct (dup_first rows j) eqn:Ej.
  - apply (IH j Hj); [lia | exact Ej].
  - exists j. split; [lia | split; [| exact Ej]].
    apply dup_any_iff; [lia |]. exists i. split; [exact Hi | split; [lia |]].
    rewrite row_eqb_sym. exact Heq.
Qed.

(** Whenever some row repeats an earlier one, the rows selected by
    [duplicated(keep=False)] outnumber those counted by
    [duplicated(keep="first")]. *)
Lemma dup_first_lt_any (rows : list (list cell)) :
  0 < count_true (dup_first_mask rows) ->
  count_true (dup_first_mask rows) < count_true (dup_any_mask rows).
Proof.
  unfold dup_first_mask, dup_any_mask. rewrite !count_true_map. intros Hpos.
  apply filter_length_lt.
  - intros x _ Hx. unfold dup_any. rewrite Hx. reflexivity.
  - destruct (filter (dup_first rows) (seq 0 (length rows))) as [| i l] eqn:E;
      [simpl in Hpos; lia |].
    assert (Hin : In i (filter (dup_first rows) (seq 0 (length rows)))) by (rewrite E; left; auto).
    apply filter_In in Hin as [Hi Hd]. apply in_seq in Hi.
    destruct (first_occurrence rows i) as [j [Hj [Ha Hf]]]; [lia | exact Hd |].
    exists j. rewrite in_seq. split; [lia | split; assumption].
Qed.

Lemma mask_indices_seq (g : nat -> bool) (n : nat) :
  mask_indices (map g (seq 0 n)) = filter g (seq 0 n).
Proof.
  unfold mask_indices. rewrite length_map, length_seq. generalize (seq 0 n) as l.
  induction l as [| a l IH]; simpl; [reflexivity |].
  destruct (g a); simpl; rewrite IH; reflexivity.
Qed.

End Duplicates.

(* ------------------------------------------------------------------ *)
(** ** The primary-key check *)

(** C3 counterexample: in [pk_frame] three rows (0, 1, 3) share the key
    value 1 with another row, but the check reports 2 duplicates. *)
Lemma pk_count_counterexample :
  exists f, check_primary_key pk_frame ["id"%string] = Some [f]
    /\ dict_get "duplicates" (hd [] (issues f)) = Some (VInt 2)
    /\ count_sharing (rows_of [id_column] (df_nrows pk_frame)) = 3%nat.
Proof.
  eexists. split; [reflexivity |]. split; vm_compute; reflexivity.
Qed.

(** C3 (as amended): with a non-empty key list whose columns all exist, the
    reported count is the number of rows whose key values equal those of an
    earlier row (a group of k equal keys counts k - 1); when positive the
    check emits exactly one critical "Primary Key Uniqueness" finding with
    impact norm(count, max(10, 2% of the rows)), otherwise nothing.  A
    positive count is strictly below the number of rows sharing their key
    with another row. *)
Theorem primary_key_count (df : DataFrame) (pk : list string) (kcols : list column)
    (Hpk : pk <> []) (Hcols : map_opt (find_column df) pk = Some kcols) :
  let keys := rows_of kcols (df_nrows df) in
  let d := count_equal_earlier keys in
  (exists ex,
    check_primary_key df pk =
      Some (if (0 <? d)%nat then
              [mkCheckResult "Primary Key Uniqueness" "critical"
                 [[("duplicates"%string, VInt (Z.of_nat d)); ("examples"%string, ex)]]
                 (norm (inject_Z (Z.of_nat d)) (cap_of (df_nrows df) (2 # 100)))]
            else []))
  /\ ((0 < d)%nat -> (d < count_sharing keys)%nat).
Proof.
  intros keys d. split.
  - unfold check_primary_key. destruct pk as [| k pk']; [contradiction |].
    rewrite Hcols. cbv zeta.
    change (rows_of kcols (df_nrows df)) with keys. rewrite dup_first_count.
    change (count_equal_earlier keys) with d.
    destruct (0 <? d)%nat; [eexists; reflexivity | exists VNone; reflexivity].
  - intros Hd. unfold d. rewrite <- dup_first_count, <- dup_any_count.
    apply dup_first_lt_any. rewrite dup_first_count. exact Hd.
Qed.

Lemma primary_key_count_witness :
  ["id"%string] <> [] /\ map_opt (find_column pk_frame) ["id"%string] = Some [id_column]
  /\ (let keys := rows_of [id_column] (df_nrows pk_frame) in
      let d := count_equal_earlier keys in
      (exists ex,
        check_primary_key pk_frame ["id"%string] =
          Some (if (0 <? d)%nat then
                  [mkCheckResult "Primary Key Uniqueness" "critical"
                     [[("duplicates"%string, VInt (Z.of_nat d)); ("examples"%string, ex)]]
                     (norm (inject_Z (Z.of_nat d)) (cap_of (df_nrows pk_frame) (2 # 100)))]
                else []))
      /\ ((0 < d)%nat -> (d < count_sharing keys)%nat)).
Proof.
  assert (H1 : ["id"%string] <> []) by discriminate.
  assert (H2 : map_opt (find_column pk_frame) ["id"%string] = Some [id_column]) by reflexivity.
  split; [exact H1 | split; [exact H2 | exact (primary_key_count pk_frame _ _ H1 H2)]].
Defined.

(* ------------------------------------------------------------------ *)
(** ** The date check *)

Lemma string_app_inj (p c c' : string) : (p ++ c)%string = (p ++ c')%string -> c = c'.
Proof.
  induction p as [| a p IH]; simpl; [auto |]. intros H. injection H as H. exact (IH H).
Qed.

Lemma NoDup_map_inj {A B} (f : A -> B) (l : list A) (x y : A) :
  NoDup (map f l) -> In x l -> In y l -> f x = f y -> x = y.
Proof.
  induction l as [| a l IH]; simpl; [contradiction |]. intros Hnd Hx Hy Hf.
  inversion Hnd as [| b bs Hnotin Hnd' Heq]; subst.
  destruct Hx as [<- | Hx], Hy as [<- | Hy]; [reflexivity | | | exact (IH Hnd' Hx Hy Hf)].
  - exfalso. apply Hnotin. rewrite Hf. apply in_map. exact Hy.
  - exfalso. apply Hnotin. rewrite <- Hf. apply in_map. exact Hx.
Qed.

(** C7: in a frame with distinct column names (as [read_csv] and
    [read_excel] produce them), for every candidate date column the check
    emits a finding named "Invalid Dates: <column>" exactly when the number
    of values whose coercion yields NaT is positive, and that finding is
    minor, carries the count, and has impact
    norm(invalid, max(10, 5% of the rows)). *)
Theorem invalid_dates_iff (parse_timestamp : cell -> option Z) (df : DataFrame) (col : column)
    (Hnames : NoDup (df_names df)) (Hin : In col (df_columns df))
    (Hdate : is_date_column col = true) :
  let invalid := count_none (to_datetime_col parse_timestamp col) in
  ((exists f, In f (check_dates parse_timestamp df)
              /\ name f = ("Invalid Dates: " ++ col_name col)%string) <-> (0 < invalid)%nat)
  /\ ((0 < invalid)%nat ->
      In (mkCheckResult ("Invalid Dates: " ++ col_name col) "minor"
            [[("invalid"%string, VInt (Z.of_nat invalid))]]
            (norm (inject_Z (Z.of_nat invalid)) (cap_of (df_nrows df) (5 # 100))))
         (check_dates parse_timestamp df)).
Proof.
  intros invalid.
  assert (Hmem : (0 < invalid)%nat ->
      In (mkCheckResult ("Invalid Dates: " ++ col_name col) "minor"
            [[("invalid"%string, VInt (Z.of_nat invalid))]]
            (norm (inject_Z (Z.of_nat invalid)) (cap_of (df_nrows df) (5 # 100))))
         (check_dates parse_timestamp df)).
  { intros Hpos. unfold check_dates. apply in_or_app. left. apply in_flat_map.
    exists (col_name col, to_datetime_col parse_timestamp col). split.
    - apply in_map_iff. exists col. split; [reflexivity |]. apply filter_In. split; assumption.
    - unfold invalid_dates. simpl. fold invalid.
      destruct (Nat.ltb_spec 0 invalid); [left; reflexivity | lia]. }
  split; [split | exact Hmem].
  - intros [f [Hf Hname]]. unfold check_dates in Hf. apply in_app_or in Hf as [Hf | Hf].
    + apply in_flat_map in Hf as [[c s] [Hp Hf]].
      apply in_map_iff in Hp as [col' [Hp Hcol']]. injection Hp as <- <-.
      apply filter_In in Hcol' as [Hcol' _].
      unfold invalid_dates in Hf. simpl in Hf.
      destruct (Nat.ltb_spec 0 (count_none (to_datetime_col parse_timestamp col'))) as [Hlt |];
        [| destruct Hf].
      destruct Hf as [<- | []].
      change (("Invalid Dates: " ++ col_name col')%string
              = ("Invalid Dates: " ++ col_name col)%string) in Hname.
      apply string_app_inj in Hname.
      assert (Heq : col' = col) by (apply (NoDup_map_inj col_name (df_columns df)); assumption).
      subst col'. exact Hlt.
    + exfalso.
      destruct (assoc_get "order_date" _); [| destruct Hf].
      destruct (assoc_get "ship_date" _); [| destruct Hf].
      match type of Hf with In _ (if ?c then _ else _) => destruct c end; [| destruct Hf].
      destruct Hf as [<- | []]. discriminate Hname.
  - intros Hpos. eexists. split; [exact (Hmem Hpos) | reflexivity].
Qed.

Lemma invalid_dates_iff_witness :
  NoDup (df_names date_frame) /\ In (hd id_column (df_columns date_frame)) (df_columns date_frame)
  /\ is_date_column (hd id_column (df_columns date_frame)) = true
  /\ (let invalid := count_none (to_datetime_col (fun _ => None)
                                  (hd id_column (df_columns date_frame))) in
      ((exists f, In f (check_dates (fun _ => None) date_frame)
                  /\ name f = ("Invalid Dates: " ++ col_name (hd id_column (df_columns date_frame)))%string)
       <-> (0 < invalid)%nat)
      /\ ((0 < invalid)%nat ->
          In (mkCheckResult ("Invalid Dates: " ++ col_name (hd id_column (df_columns date_frame)))
                "minor" [[("invalid"%string, VInt (Z.of_nat invalid))]]
                (norm (inject_Z (Z.of_nat invalid)) (cap_of (df_nrows date_frame) (5 # 100))))
             (check_dates (fun _ => None) date_frame))).
Proof.
  assert (H1 : NoDup (df_names date_frame)) by (repeat constructor; simpl; tauto).
  assert (H2 : In (hd id_column (df_columns date_frame)) (df_columns date_frame)) by (left; reflexivity).
  assert (H3 : is_date_column (hd id_column (df_columns date_frame)) = true) by reflexivity.
  split; [exact H1 | split; [exact H2 | split; [exact H3 |]]].
  exact (invalid_dates_iff (fun _ => None) date_frame _ H1 H2 H3).
Defined.

(* ------------------------------------------------------------------ *)
(** ** The enrichment stage *)

Lemma dict_get_set_same (k : string) (v : value) (d : record) :
  dict_get k (dict_set k v d) = Some v.
Proof.
  induction d as [| [k' v'] d IH]; simpl.
  - rewrite String.eqb_refl. reflexivity.
  - destruct (String.eqb k k') eqn:E; simpl; rewrite E; [reflexivity | exact IH].
Qed.

Lemma dict_get_set_other (k k' : string) (v : value) (d : record) :
  k <> k' -> dict_get k (dict_set k' v d) = dict_get k d.
Proof.
  intros Hne. induction d as [| [k0 v0] d IH]; simpl.
  - apply String.eqb_neq in Hne. rewrite Hne. reflexivity.
  - destruct (String.eqb k' k0) eqn:E; simpl.
    + apply String.eqb_eq in E. subst k0. apply String.eqb_neq in Hne. rewrite Hne. reflexivity.
    + destruct (String.eqb k k0); [reflexivity | exact IH].
Qed.

Lemma dict_set_keeps (k k' : string) (v : value) (d : record) :
  dict_get k d <> None -> dict_get k (dict_set k' v d) <> None.
Proof.
  intros H. destruct (string_dec k k') as [<- | Hne].
  - rewrite dict_get_set_same. discriminate.
  - rewrite dict_get_set_other by exact Hne. exact H.
Qed.

Lemma not_in_cons_ne {A} (x a : A) (l : list A) : ~ In x (a :: l) -> x <> a /\ ~ In x l.
Proof. intros H. split; [intros <-; apply H; left; reflexivity | intros Hx; apply H; right; exact Hx]. Qed.

Lemma dup_evidence_frame (df : DataFrame) (info : record) :
  keys_only_set dup_keys info (dup_evidence df info) /\ keys_set dup_keys (dup_evidence df info).
Proof.
  unfold dup_evidence, dup_keys. split.
  - intros k Hk.
    apply not_in_cons_ne in Hk as [H1 Hk]. apply not_in_cons_ne in Hk as [H2 Hk].
    apply not_in_cons_ne in Hk as [H3 _].
    rewrite !dict_get_set_other by assumption. reflexivity.
  - intros k Hk. destruct Hk as [<- | [<- | [<- | []]]];
      repeat first [rewrite dict_get_set_same; discriminate | apply dict_set_keeps].
Qed.

Lemma iqr_evidence_frame parse_number fmt3 (col : column) (lo hi : Q) (info : record) :
  keys_only_set iqr_keys info (iqr_evidence parse_number fmt3 col lo hi info)
  /\ keys_set iqr_keys (iqr_evidence parse_number fmt3 col lo hi info).
Proof.
  unfold iqr_evidence, iqr_keys. split.
  - intros k Hk.
    apply not_in_cons_ne in Hk as [H1 Hk]. apply not_in_cons_ne in Hk as [H2 Hk].
    apply not_in_cons_ne in Hk as [H3 Hk]. apply not_in_cons_ne in Hk as [H4 _].
    rewrite !dict_get_set_other by assumption. reflexivity.
  - intros k Hk. destruct Hk as [<- | [<- | [<- | [<- | []]]]];
      repeat first [rewrite dict_get_set_same; discriminate | apply dict_set_keeps].
Qed.

Lemma enrich_first_dup_step (df : DataFrame) (rs : list CheckResult) :
  Forall2 (dup_step df) rs (enrich_first_dup df rs).
Proof.
  induction rs as [| r rs IH]; simpl; [constructor |].
  destruct (issues r) as [| info rest] eqn:Ei.
  - constructor; [left; reflexivity | exact IH].
  - destruct (String.eqb (name r) "Duplicate Rows") eqn:En.
    + constructor.
      * right. split; [apply String.eqb_eq; exact En |]. exists info, rest. split; [exact Ei | reflexivity].
      * clear IH. induction rs as [| r' rs IH']; constructor; [left; reflexivity | exact IH'].
    + constructor; [left; reflexivity | exact IH].
Qed.

Lemma enrich_dups_step (df : DataFrame) (rs : list CheckResult) :
  Forall2 (dup_step df) rs (enrich_dups df rs).
Proof.
  unfold enrich_dups. destruct (existsb _ _); [apply enrich_first_dup_step |].
  induction rs as [| r rs IH]; constructor; [left; reflexivity | exact IH].
Qed.

Lemma enrich_iqr_cases parse_number fmt3 (df : DataFrame) (r r' : CheckResult) :
  enrich_iqr parse_number fmt3 df r = Some r' ->
  r' = r \/
  (String.prefix "IQR Outliers" (name r) = true /\
   exists col lo hi info rest, issues r = info :: rest
     /\ r' = mkCheckResult (name r) (severity r)
               (iqr_evidence parse_number fmt3 col lo hi info :: rest) (impact r)).
Proof.
  unfold enrich_iqr. destruct (String.prefix "IQR Outliers" (name r)) eqn:Ep;
    [| intros H; injection H as <-; left; reflexivity].
  cbv zeta.
  destruct (match after_colon (name r) with Some s => strip s | None => EmptyString end)
    as [| a s]; [intros H; injection H as <-; left; reflexivity |].
  destruct (find_column df (String a s)) as [column |];
    [| intros H; injection H as <-; left; reflexivity].
  destruct (issues r) as [| info rest] eqn:Ei; [intros H; injection H as <-; left; reflexivity |].
  destruct (bound_of (dict_get "lo" info)) as [lo |]; [| discriminate].
  destruct (bound_of (dict_get "hi" info)) as [hi |]; [| discriminate].
  intros H. injection H as <-. right. split; [reflexivity |].
  exists column, lo, hi, info, rest. split; reflexivity.
Qed.

Lemma map_opt_Forall2 {A B} (f : A -> option B) (l : list A) (l' : list B) :
  map_opt f l = Some l' -> Forall2 (fun x y => f x = Some y) l l'.
Proof.
  revert l'. induction l as [| x l IH]; intros l' H; simpl in H.
  - injection H as <-. constructor.
  - destruct (f x) eqn:Ex; [| discriminate]. destruct (map_opt f l) eqn:El; [| discriminate].
    injection H as <-. constructor; [exact Ex | apply IH; reflexivity].
Qed.

Lemma Forall2_compose {A B C} (R1 : A -> B -> Prop) (R2 : B -> C -> Prop) (R : A -> C -> Prop)
    (la : list A) (lb : list B) (lc : list C) :
  (forall a b c, R1 a b -> R2 b c -> R a c) ->
  Forall2 R1 la lb -> Forall2 R2 lb lc -> Forall2 R la lc.
Proof.
  intros HR H1. revert lc. induction H1 as [| a b la lb Hab _ IH]; intros lc H2;
    inversion H2; subst; constructor; eauto.
Qed.

(** C9: whenever the enrichment stage completes, it keeps every finding's
    name, severity and impact; it only sets the evidence keys (row indices,
    sample rows or values, columns or column, explanation) on the first
    issue record of a "Duplicate Rows" finding or of a finding whose name
    starts with "IQR Outliers", keeping every other key of that record and
    the later records, and leaves every other finding untouched. *)
Theorem enrichment_frame parse_number fmt3 (df : DataFrame) (rs rs' : list CheckResult)
    (H : enrich parse_number fmt3 df rs = Some rs') :
  Forall2 enrich_related rs rs'.
Proof.
  unfold enrich in H. apply map_opt_Forall2 in H.
  eapply Forall2_compose; [| apply enrich_dups_step | exact H].
  intros r r1 r' Hstep Hiqr.
  destruct Hstep as [-> | [Hn [info [rest [Ei ->]]]]].
  - apply enrich_iqr_cases in Hiqr as [-> | [Hp [col [lo [hi [info [rest [Ei ->]]]]]]]].
    + split; [reflexivity | split; [reflexivity | split; [reflexivity | left; reflexivity]]].
    + simpl. split; [reflexivity | split; [reflexivity | split; [reflexivity |]]].
      right. exists info, (iqr_evidence parse_number fmt3 col lo hi info), rest, iqr_keys.
      split; [exact Ei | split; [reflexivity | split; [right; split; [exact Hp | reflexivity] |]]].
      apply iqr_evidence_frame.
  - unfold enrich_iqr in Hiqr. simpl in Hiqr.
    destruct (String.prefix "IQR Outliers" (name r)) eqn:Ep;
      [rewrite Hn in Ep; discriminate Ep |].
    injection Hiqr as <-. simpl.
    split; [reflexivity | split; [reflexivity | split; [reflexivity |]]].
    right. exists info, (dup_evidence df info), rest, dup_keys.
    split; [exact Ei | split; [reflexivity | split; [left; split; [exact Hn | reflexivity] |]]].
    apply dup_evidence_frame.
Qed.

(* ------------------------------------------------------------------ *)
(** ** Duplicate-row evidence through the whole pipeline *)

Ltac other_name := constructor; [discriminate | constructor].

Lemma check_schema_not_dup (df : DataFrame) (b : option Baseline) :
  Forall not_dup_finding (check_schema df b).
Proof.
  unfold check_schema. destruct b as [b |]; [| constructor].
  destruct (negb (baseline_truthy (Some b))); [constructor |].
  apply Forall_app; split; [| apply Forall_app; split];
  match goal with |- Forall _ (match ?m with _ => _ end) => destruct m end;
    solve [constructor | other_name].
Qed.

Lemma check_primary_key_not_dup (df : DataFrame) (pk : list string) (pks : list CheckResult) :
  check_primary_key df pk = Some pks -> Forall not_dup_finding pks.
Proof.
  unfold check_primary_key. destruct pk as [| k pk]; [intros H; injection H as <-; constructor |].
  destruct (map_opt (find_column df) (k :: pk)) as [kcols |]; [| discriminate].
  match goal with |- (if ?c then _ else _) = _ -> _ => destruct c end;
    intros H; injection H as <-; [other_name | constructor].
Qed.

Lemma run_checks_shape num_str time_str parse_number parse_timestamp email_match postcode_match
    (df : DataFrame) (b : option Baseline) (rs : list CheckResult) :
  run_checks num_str time_str parse_number parse_timestamp email_match postcode_match df b
    = Some rs ->
  exists pks rest, Forall not_dup_finding pks
    /\ rs = check_schema df b ++ pks ++ check_missing_duplicates_types df ++ rest.
Proof.
  unfold run_checks.
  destruct (match b with Some _ => _ | None => _ end) as [pks |] eqn:Epk; [| discriminate].
  destruct (check_outliers_iqr parse_number df) as [outs |]; [| discriminate].
  intros H. injection H as <-.
  exists pks. eexists. split; [| reflexivity].
  destruct b as [b |]; [| injection Epk as <-; constructor].
  destruct (baseline_truthy (Some b)); [| injection Epk as <-; constructor].
  destruct (b_primary_key b) as [pk |]; [| injection Epk as <-; constructor].
  eapply check_primary_key_not_dup. exact Epk.
Qed.

Lemma enrich_first_dup_skip (df : DataFrame) (a rest : list CheckResult) :
  Forall not_dup_finding a -> enrich_first_dup df (a ++ rest) = a ++ enrich_first_dup df rest.
Proof.
  induction 1 as [| r a Hr _ IH]; [reflexivity |]. simpl.
  destruct (issues r) as [| info rs]; [rewrite IH; reflexivity |].
  apply String.eqb_neq in Hr. rewrite Hr, IH. reflexivity.
Qed.

Lemma length_rows_of (cols : list column) (n : nat) : length (rows_of cols n) = n.
Proof. unfold rows_of. rewrite length_map, length_seq. reflexivity. Qed.

Lemma Forall2_in_left {A B} (R : A -> B -> Prop) (l : list A) (l' : list B) (x : A) :
  Forall2 R l l' -> In x l -> exists y, In y l' /\ R x y.
Proof.
  induction 1 as [| a b l l' Hab _ IH]; [contradiction |]. intros [<- | Hx].
  - exists b. split; [left; reflexivity | exact Hab].
  - destruct (IH Hx) as [y [Hy Hr]]. exists y. split; [right; exact Hy | exact Hr].
Qed.

(** C10: on a frame with an exact duplicate row, once the checks and the
    enrichment have run, the "Duplicate Rows" finding's [row_indices] lists
    exactly the rows equal to some other row (every occurrence, first ones
    included), its [duplicates] count is the number of rows equal to an
    earlier row (k - 1 per group of k), and the list is strictly longer than
    the count. *)
Theorem duplicate_rows_evidence num_str time_str parse_number parse_timestamp email_match
    postcode_match fmt3 (df : DataFrame) (baseline : option Baseline) (rs : list CheckResult)
    (Hdup : exists i j, (i < j < df_nrows df)%nat
                        /\ row_eqb (nth i (df_rows df) []) (nth j (df_rows df) []) = true)
    (Haudit : audit num_str time_str parse_number parse_timestamp email_match postcode_match fmt3
                df baseline = Some rs) :
  let rows := df_rows df in
  exists r info rest d l,
    In r rs /\ name r = "Duplicate Rows"%string /\ issues r = info :: rest
    /\ dict_get "duplicates" info = Some (VInt d)
    /\ dict_get "row_indices" info = Some (int_list l)
    /\ (forall i, In i l <-> (i < df_nrows df)%nat
                             /\ exists j, (j < df_nrows df)%nat /\ j <> i
                                          /\ row_eqb (nth j rows []) (nth i rows []) = true)
    /\ d = Z.of_nat (count_equal_earlier rows)
    /\ (d < Z.of_nat (length l))%Z.
Proof.
  intros rows.
  assert (Hlen : length rows = df_nrows df) by apply length_rows_of.
  destruct Hdup as [i [j [Hij Heq]]].
  assert (Hfirst : dup_first rows j = true).
  { apply dup_first_iff; [lia |]. exists i. split; [lia | exact Heq]. }
  assert (Hpos : (0 < count_true (dup_first_mask rows))%nat).
  { unfold dup_first_mask. rewrite count_true_map.
    assert (Hin : In j (filter (dup_first rows) (seq 0 (length rows))))
      by (apply filter_In; split; [apply in_seq; lia | exact Hfirst]).
    destruct (filter (dup_first rows) (seq 0 (length rows))); [destruct Hin | simpl; lia]. }
  unfold audit in Haudit.
  destruct (run_checks _ _ _ _ _ _ df baseline) as [rs0 |] eqn:Erun; [| discriminate].
  apply run_checks_shape in Erun as [pks [rest0 [Hpks ->]]].
  set (dups := count_true (dup_first_mask rows)) in *.
  set (dupf := mkCheckResult "Duplicate Rows" "major" [[("duplicates"%string, VInt (Z.of_nat dups))]]
                 (norm (inject_Z (Z.of_nat dups)) (cap_of (df_nrows df) (3 # 100)))).
  assert (Hmd : exists a, Forall not_dup_finding a
                          /\ check_missing_duplicates_types df = a ++ [dupf]).
  { unfold check_missing_duplicates_types. fold rows. fold dups.
    destruct (Nat.ltb_spec 0 dups); [| lia].
    eexists. split; [| reflexivity].
    match goal with |- Forall _ (match ?m with _ => _ end) => destruct m end;
      [constructor | other_name]. }
  destruct Hmd as [a [Ha Hmd]]. rewrite Hmd in Haudit.
  set (enriched := mkCheckResult "Duplicate Rows" "major"
                     [dup_evidence df [("duplicates"%string, VInt (Z.of_nat dups))]]
                     (norm (inject_Z (Z.of_nat dups)) (cap_of (df_nrows df) (3 # 100)))).
  assert (Hed : enrich_dups df (check_schema df baseline ++ pks ++ (a ++ [dupf]) ++ rest0)
                = check_schema df baseline ++ pks ++ a ++ enriched :: rest0).
  { unfold enrich_dups.
    assert (Hex : existsb (fun b => b) (dup_any_mask (df_rows df)) = true).
    { apply existsb_exists. exists true. split; [| reflexivity].
      unfold dup_any_mask. apply in_map_iff. exists j. split.
      - fold rows. unfold dup_any. rewrite Hfirst. reflexivity.
      - apply in_seq. fold rows. lia. }
    rewrite Hex.
    replace (check_schema df baseline ++ pks ++ (a ++ [dupf]) ++ rest0)
      with ((check_schema df baseline ++ pks ++ a) ++ dupf :: rest0)
      by (rewrite <- !app_assoc; reflexivity).
    rewrite enrich_first_dup_skip.
    - rewrite <- !app_assoc. reflexivity.
    - apply Forall_app. split; [apply check_schema_not_dup |].
      apply Forall_app. split; assumption. }
  unfold enrich in Haudit. rewrite Hed in Haudit. apply map_opt_Forall2 in Haudit.
  destruct (Forall2_in_left _ _ _ enriched Haudit) as [y [Hy Hry]].
  { apply in_or_app. right. apply in_or_app. right. apply in_or_app. right. left. reflexivity. }
  unfold enrich_iqr in Hry. simpl in Hry. injection Hry as <-.
  exists enriched, (dup_evidence df [("duplicates"%string, VInt (Z.of_nat dups))]), [],
         (Z.of_nat dups), (mask_indices (dup_any_mask rows)).
  split; [exact Hy |]. split; [reflexivity |]. split; [reflexivity |].
  split; [unfold dup_evidence; rewrite !dict_get_set_other by discriminate; reflexivity |].
  split; [unfold dup_evidence; rewrite !dict_get_set_other by discriminate;
          rewrite dict_get_set_same; reflexivity |].
  unfold dup_any_mask. rewrite mask_indices_seq.
  split; [| split].
  - intros k. rewrite filter_In, in_seq, Hlen. split.
    + intros [Hk Ha']. split; [lia |]. apply dup_any_iff in Ha' as [j' [Hj' Hne]]; [| lia].
      exists j'. rewrite <- Hlen. exact (conj Hj' Hne).
    + intros [Hk [j' [Hj' Hne]]]. split; [lia |]. apply dup_any_iff; [lia |].
      exists j'. rewrite Hlen. exact (conj Hj' Hne).
  - unfold dups. rewrite dup_first_count. reflexivity.
  - rewrite <- count_true_map. fold (dup_any_mask rows). apply inj_lt. apply dup_first_lt_any.
    exact Hpos.
Qed.

Lemma enrichment_frame_witness :
  exists rs', enrich (fun _ => None) (fun _ => EmptyString) example_frame iqr_findings = Some rs'
              /\ Forall2 enrich_related iqr_findings rs'.
Proof.
  destruct (enrich (fun _ => None) (fun _ => EmptyString) example_frame iqr_findings)
    as [rs' |] eqn:E.
  - exists rs'. split; [reflexivity | exact (enrichment_frame _ _ _ _ _ E)].
  - vm_compute in E. discriminate E.
Defined.

Lemma duplicate_rows_evidence_witness :
  (exists i j, (i < j < df_nrows dup_frame)%nat
               /\ row_eqb (nth i (df_rows dup_frame) []) (nth j (df_rows dup_frame) []) = true)
  /\ exists rs,
    audit (fun _ => EmptyString) (fun _ => EmptyString) (fun _ => None) (fun _ => None)
          (fun _ => false) (fun _ => false) (fun _ => EmptyString) dup_frame None = Some rs
    /\ (let rows := df_rows dup_frame in
        exists r info rest d l,
          In r rs /\ name r = "Duplicate Rows"%string /\ issues r = info :: rest
          /\ dict_get "duplicates" info = Some (VInt d)
          /\ dict_get "row_indices" info = Some (int_list l)
          /\ (forall i, In i l <-> (i < df_nrows dup_frame)%nat
                                   /\ exists j, (j < df_nrows dup_frame)%nat /\ j <> i
                                        /\ row_eqb (nth j rows []) (nth i rows []) = true)
          /\ d = Z.of_nat (count_equal_earlier rows)
          /\ (d < Z.of_nat (length l))%Z).
Proof.
  assert (Hd : exists i j, (i < j < df_nrows dup_frame)%nat
               /\ row_eqb (nth i (df_rows dup_frame) []) (nth j (df_rows dup_frame) []) = true).
  { exists 0%nat, 1%nat. split; [simpl; lia | reflexivity]. }
  split; [exact Hd |].
  destruct (audit (fun _ => EmptyString) (fun _ => EmptyString) (fun _ => None) (fun _ => None)
          (fun _ => false) (fun _ => false) (fun _ => EmptyString) dup_frame None)
    as [rs |] eqn:E.
  - exists rs. split; [reflexivity | exact (duplicate_rows_evidence _ _ _ _ _ _ _ _ _ _ Hd E)].
  - vm_compute in E. discriminate E.
Defined.
